(** * Cash Flow Tracker: the ledger, the balance engine and the aggregation
      engine of [main.py], embedded and verified.

    The Streamlit script keeps three keys in [st.session_state]
    ([transactions], [initial_balance], [is_initialized]) and re-runs [main]
    on every user interaction.  One run of [main] is modelled as a function
    from the stored session, the interaction that triggered the run and the
    clock reading to the new session and the alerts shown.  Page layout,
    CSS and chart styling are left out; the data handed to the charts is
    kept. *)

From Stdlib Require Import ZArith PrimFloat.
From Stdlib Require QArith Qcanon.
From stdpp Require Import base option list strings gmap fin_maps pretty.

Local Open Scope string_scope.
Local Open Scope list_scope.

(** ** Numbers

    Amounts are whatever [st.number_input] returns and Python's arithmetic
    works on; the literal [0] of [initialize_session_state] lives in the same
    tower.  The script uses [0], [+] (inside [sum] and [+=]), [-], [<], [>]
    and [==] only. *)

Class Number (A : Type) := {
  num_zero : A;
  num_add : A -> A -> A;
  num_sub : A -> A -> A;
  num_ltb : A -> A -> bool;
  num_eqb : A -> A -> bool
}.

(** [x > y] is [y < x]. *)
Definition num_gtb `{Number A} (x y : A) : bool := num_ltb y x.

(** [x <= y], from the two comparisons the script has. *)
Definition num_le `{Number A} (x y : A) : Prop := num_ltb x y = true \/ x = y.

(** [<] is a strict order, and a smaller number minus a larger one is
    below 0.  Integers, decimals and IEEE floats all behave so. *)
Class OrderedNumber (A : Type) `{Number A} : Prop := {
  num_ltb_irrefl : forall x : A, num_ltb x x = false;
  num_ltb_asym : forall x y : A, num_ltb x y = true -> num_ltb y x = false;
  num_ltb_sub_neg : forall x y : A, num_ltb x y = true -> num_ltb (num_sub x y) num_zero = true
}.

(** The laws of exact arithmetic (integers, rationals, decimals).  They are
    assumed only by the results that regroup additions or compare a running
    difference with a difference of a sum; every other result is proved for
    an arbitrary [Number].  Python's [float] does not obey them: its sums are
    rounded. *)
Class ExactNumber (A : Type) `{Number A} : Prop := {
  num_add_0_l : forall x : A, num_add num_zero x = x;
  num_add_comm : forall x y : A, num_add x y = num_add y x;
  num_add_assoc : forall x y z : A, num_add x (num_add y z) = num_add (num_add x y) z;
  num_sub_0_r : forall x : A, num_sub x num_zero = x;
  num_sub_add_distr : forall x y z : A, num_sub x (num_add y z) = num_sub (num_sub x y) z
}.

(** Exact rationals, the numbers on which [/] is exact too. *)
#[export] Instance Qc_Number : Number Qcanon.Qc := {|
  num_zero := Qcanon.Q2Qc (QArith_base.inject_Z 0);
  num_add := Qcanon.Qcplus;
  num_sub := Qcanon.Qcminus;
  num_ltb := fun x y => bool_decide (Qcanon.Qclt x y);
  num_eqb := fun x y => bool_decide (x = y)
|}.

#[export] Instance Z_Number : Number Z := {|
  num_zero := 0%Z;
  num_add := Z.add;
  num_sub := Z.sub;
  num_ltb := Z.ltb;
  num_eqb := Z.eqb
|}.

(** Python's [float], the type [st.number_input] returns here: IEEE 754
    binary64 with its rounding.  [0 + x] and [0 - x] promote the integer
    [0] to [0.0]. *)
#[export] Instance float_Number : Number float := {|
  num_zero := 0%float;
  num_add := PrimFloat.add;
  num_sub := PrimFloat.sub;
  num_ltb := PrimFloat.ltb;
  num_eqb := PrimFloat.eqb
|}.

(** The float Python reads from a decimal with two places: [paise 6] is
    [0.06]. *)
Definition paise (n : float) : float := (n / 100)%float.

(** Python's [sum(xs)]: start from [0], add from the left.  (From CPython
    3.12 on, [sum] adds floats with a compensation term; on numbers that add
    exactly, and on lists of up to two floats, the result is the same.) *)
Definition py_sum `{Number A} (xs : list A) : A :=
  fold_left num_add xs num_zero.

(** The mathematical sum of a list of amounts, written independently of the
    evaluation order the script uses. *)
Fixpoint total `{Number A} (xs : list A) : A :=
  match xs with
  | [] => num_zero
  | x :: xs' => num_add x (total xs')
  end.

(** ** Data model *)

(** [datetime.date] and [datetime.datetime] values; the script only stores
    them and hands them on. *)
Record Date := mkDate { year : Z; month : Z; day : Z }.
Record DateTime := mkDateTime { on : Date; hour : Z; minute : Z; second : Z; microsecond : Z }.

(** What [datetime.now()] and [date.today()] return during one run. *)
Record clock := mkClock { now : DateTime; today : Date }.

(** The dict built by [add_transaction]. *)
Record transaction {A : Type} := mkTransaction {
  amount : A;
  description : string;
  timestamp : DateTime;
  date : Date
}.
Arguments transaction : clear implicits.
Arguments mkTransaction {A}.

(** [st.session_state] after [initialize_session_state]: all three keys are
    present. *)
Record session_state {A : Type} := mkState {
  transactions : list (transaction A);
  initial_balance : A;
  is_initialized : bool
}.
Arguments session_state : clear implicits.
Arguments mkState {A}.

(** [st.session_state] as Streamlit stores it between runs: a key may be
    missing (a new browser session has none). *)
Record session_store {A : Type} := mkStore {
  stored_transactions : option (list (transaction A));
  stored_initial_balance : option A;
  stored_is_initialized : option bool
}.
Arguments session_store : clear implicits.
Arguments mkStore {A}.

Definition new_session {A : Type} : session_store A := mkStore None None None.

(** The store a run leaves behind. *)
Definition store_of {A : Type} (st : session_state A) : session_store A :=
  mkStore (Some (transactions st)) (Some (initial_balance st)) (Some (is_initialized st)).

Section Ledger.
Context {A : Type} `{Number A}.

(** [initialize_session_state] (lines 91-98): a default for each missing
    key. *)
Definition initialize_session_state (ss : session_store A) : session_state A :=
  mkState
    (match stored_transactions ss with Some ts => ts | None => [] end)
    (match stored_initial_balance ss with Some b => b | None => num_zero end)
    (match stored_is_initialized ss with Some i => i | None => false end).

(** [calculate_current_balance] (lines 100-106). *)
Definition calculate_current_balance (st : session_state A) : A :=
  if negb (is_initialized st) then num_zero
  else
    let total_expenses := py_sum (amount <$> transactions st) in
    num_sub (initial_balance st) total_expenses.

(** [add_transaction] (lines 108-116).  The default of the [description]
    parameter is ["Expense"]; it is the [None] case here. *)
Definition add_transaction (st : session_state A) (clk : clock)
    (amount : A) (description : option string) : session_state A :=
  let transaction :=
    mkTransaction amount (default "Expense" description) (now clk) (today clk) in
  mkState (transactions st ++ [transaction]) (initial_balance st) (is_initialized st).

(** *** Balance chart (lines 118-173) *)

(** The [for] loop of lines 128-131, on its three variables. *)
Fixpoint balance_loop (ts : list (transaction A)) (running_balance : A)
    (balance_history : list A) (dates : list Date) : A * list A * list Date :=
  match ts with
  | [] => (running_balance, balance_history, dates)
  | t :: ts' =>
      let running_balance := num_sub running_balance (amount t) in
      balance_loop ts' running_balance
        (balance_history ++ [running_balance]) (dates ++ [date t])
  end.

(** The balances after each transaction of [ts], starting from [r]: the
    cumulative reduction the loop is meant to compute. *)
Fixpoint running_balances (r : A) (ts : list (transaction A)) : list A :=
  match ts with
  | [] => []
  | t :: ts' => num_sub r (amount t) :: running_balances (num_sub r (amount t)) ts'
  end.

(** The [pd.DataFrame] of lines 134-138, column by column. *)
Record DataFrame := mkFrame {
  Date_col : list Date;
  Balance_col : list A;
  Transaction_col : list nat
}.

(** Lines 120-138: [None] on an empty ledger, else the frame. *)
Definition balance_frame (st : session_state A) (today : Date) : option DataFrame :=
  match transactions st with
  | [] => None
  | _ :: _ =>
      let balance_history := [initial_balance st] in
      let dates := [match transactions st with t :: _ => date t | [] => today end] in
      let running_balance := initial_balance st in
      let '(_, balance_history, dates) :=
        balance_loop (transactions st) running_balance balance_history dates in
      Some (mkFrame dates balance_history (seq 0 (length balance_history)))
  end.

(** The one trace of the returned figure: [x=df['Transaction']],
    [y=df['Balance']]. *)
Record figure := mkFigure { trace_x : list nat; trace_y : list A }.

Definition create_balance_visualization (st : session_state A) (today : Date)
    : option figure :=
  df ← balance_frame st today;
  Some (mkFigure (Transaction_col df) (Balance_col df)).

(** The rows of a frame, as (index, date, balance) points. *)
Definition points (df : DataFrame) : list (nat * Date * A) :=
  zip (zip (Transaction_col df) (Date_col df)) (Balance_col df).

(** *** Expense breakdown (lines 175-200) *)

(** One pass of the loop body of lines 183-187. *)
Definition group_step (expense_data : gmap string A) (t : transaction A)
    : gmap string A :=
  let desc := description t in
  match expense_data !! desc with
  | Some v => <[desc := num_add v (amount t)]> expense_data
  | None => <[desc := amount t]> expense_data
  end.

(** Lines 181-187. *)
Definition expense_data (ts : list (transaction A)) : gmap string A :=
  fold_left group_step ts ∅.

(** What [px.pie] is given: [names] and [values], entry by entry.  A Python
    dict lists its entries in insertion order; the finite map lists them in
    an order of its own, and nothing below depends on the order. *)
Record pie := mkPie { names : list string; values : list A }.

Definition create_expense_breakdown (st : session_state A) : option pie :=
  match transactions st with
  | [] => None
  | _ :: _ =>
      let expense_data := expense_data (transactions st) in
      if bool_decide (1 < size expense_data) then
        Some (mkPie (map_to_list expense_data).*1 (map_to_list expense_data).*2)
      else None
  end.

(** The transactions labelled exactly [d], in ledger order, and the set of
    labels in use: the groups the breakdown is meant to report. *)
Definition group (d : string) (ts : list (transaction A)) : list (transaction A) :=
  filter (fun t => description t = d) ts.

(** The entry the loop leaves for a group: the first amount assigned, the
    later ones added with [+=] in ledger order. *)
Definition group_total (g : list (transaction A)) : option A :=
  match g with
  | [] => None
  | t :: g' => Some (fold_left num_add (amount <$> g') (amount t))
  end.

Definition descriptions (ts : list (transaction A)) : gset string :=
  list_to_set (description <$> ts).

(** *** One run of [main] (lines 232-384) *)

(** The interaction that triggered the run.  [st.button] returns [True] in
    the run its click triggers and only for the clicked button; the values of
    the input widgets next to it are read in the same run.  The widgets
    bound what can be typed ([min_value=0.0] for the balance, [0.01] for an
    expense); the handlers are modelled on every value, as they test the
    amount themselves. *)
Inductive interaction :=
  | NoClick
  | ClickReset
  | ClickSetBalance (value : A)
  | ClickAddExpense (expense_amount : A) (expense_description : string).

(** The calls of [st.success], [st.error] and [st.warning] in [main]. *)
Inductive alert :=
  | success_reset                   (* "Data reset successfully!" *)
  | success_balance_set (b : A)     (* "Initial balance of ... set successfully!" *)
  | error_positive_amount           (* "Please enter a positive amount" *)
  | error_exceeded_balance          (* "Warning: You've exceeded your initial balance!" *)
  | warning_spent_all               (* "You've spent all your money!" *)
  | success_expense_added (a : A)   (* "Expense of ... added successfully!" *)
  | error_valid_amount.             (* "Please enter a valid expense amount" *)

Definition is_error (a : alert) : bool :=
  match a with
  | error_positive_amount | error_exceeded_balance | error_valid_amount => true
  | _ => false
  end.

Definition is_success (a : alert) : bool :=
  match a with
  | success_reset | success_balance_set _ | success_expense_added _ => true
  | _ => false
  end.

(** What a run leaves: the session, the alerts shown, and whether it ended
    in [st.rerun()]. *)
Record outcome := mkOutcome {
  state : session_state A;
  alerts : list alert;
  rerun : bool
}.

(** Python truthiness of a [str]: the empty string is false. *)
Definition py_bool (s : string) : bool := negb (String.eqb s "").

(** [main]: the session is initialized, the sidebar handles a reset, then
    the page is either the balance setup or the dashboard, and only the
    buttons of the page shown can have been clicked. *)
Definition main (ss : session_store A) (ev : interaction) (clk : clock) : outcome :=
  let st := initialize_session_state ss in
  (* sidebar: the reset button, lines 273-278 *)
  match ev with
  | ClickReset =>
      let st := mkState [] (initial_balance st) (is_initialized st) in
      let st := mkState (transactions st) num_zero (is_initialized st) in
      let st := mkState (transactions st) (initial_balance st) false in
      mkOutcome st [success_reset] true
  | _ =>
      if negb (is_initialized st) then
        (* initial balance setup, lines 281-303 *)
        match ev with
        | ClickSetBalance initial_balance' =>
            if num_gtb initial_balance' num_zero then
              let st := mkState (transactions st) initial_balance' (is_initialized st) in
              let st := mkState (transactions st) (initial_balance st) true in
              mkOutcome st [success_balance_set initial_balance'] true
            else mkOutcome st [error_positive_amount] false
        | _ => mkOutcome st [] false
        end
      else
        (* dashboard, lines 305-361 *)
        match ev with
        | ClickAddExpense expense_amount expense_description =>
            if num_gtb expense_amount num_zero then
              let description :=
                if py_bool expense_description then expense_description
                else "General Expense" in
              let st := add_transaction st clk expense_amount (Some description) in
              let new_balance := calculate_current_balance st in
              let shown :=
                if num_ltb new_balance num_zero then error_exceeded_balance
                else if num_eqb new_balance num_zero then warning_spent_all
                else success_expense_added expense_amount in
              mkOutcome st [shown] true
            else mkOutcome st [error_valid_amount] false
        | _ => mkOutcome st [] false
        end
  end.

(** The session after a run, stored for the next one. *)
Definition step (st : session_state A) (ev : interaction) (clk : clock)
    : session_state A :=
  state (main (store_of st) ev clk).

(** The session after a sequence of interactions. *)
Definition run (st : session_state A) (evs : list (interaction * clock))
    : session_state A :=
  fold_left (fun st e => step st e.1 e.2) evs st.

(** A sequence of add-expense commands, each with its clock reading. *)
Definition add_expenses (xs : list (A * string * clock)) : list (interaction * clock) :=
  (fun x => (ClickAddExpense x.1.1 x.1.2, x.2)) <$> xs.

(** The sessions a user can reach: a new session, then any interactions. *)
Inductive reachable : session_state A -> Prop :=
  | reachable_start clk : reachable (state (main new_session NoClick clk))
  | reachable_step st ev clk : reachable st -> reachable (step st ev clk).

End Ledger.

Arguments DataFrame : clear implicits.
Arguments figure : clear implicits.
Arguments pie : clear implicits.
Arguments interaction : clear implicits.
Arguments alert : clear implicits.
Arguments outcome : clear implicits.

(** ** The rest of the page

    What [main] displays beside the alerts: the sidebar summary, the
    transaction history and the charts of the dashboard. *)

(** Python's [/] and the literal [1]; the sidebar is the only place that
    divides. *)
Class Division (A : Type) := {
  num_div : A -> A -> A;
  num_one : A
}.

#[export] Instance Qc_Division : Division Qcanon.Qc := {|
  num_div := Qcanon.Qcdiv;
  num_one := Qcanon.Q2Qc (QArith_base.inject_Z 1)
|}.

(** Order laws of addition and subtraction: a non-negative number plus a
    positive one is positive, and subtracting a non-negative number does not
    raise.  [num_ltb x y = false] reads [y <= x]. *)
Class MonotoneNumber (A : Type) `{Number A} : Prop := {
  num_add_pos : forall x y : A,
    num_ltb x num_zero = false -> num_ltb num_zero y = true ->
    num_ltb num_zero (num_add x y) = true;
  num_sub_nonneg_le : forall x s : A,
    num_ltb s num_zero = false -> num_ltb x (num_sub x s) = false
}.

(** Order laws of division: [0 < 1], and [x / y <= 1] when [x <= y] and
    [0 < y]. *)
Class OrderedDivision (A : Type) `{Number A} `{Division A} : Prop := {
  num_zero_lt_one : num_ltb num_zero (num_one : A) = true;
  num_div_le_one : forall x y : A,
    num_ltb num_zero y = true -> num_ltb y x = false ->
    num_ltb num_one (num_div x y) = false
}.

(** The builtins that turn values into text: [f"₹{x:.2f}"],
    [d.strftime('%Y-%m-%d')] and [t.strftime('%H:%M:%S')]. *)
Class Formatting (A : Type) := {
  format_rupees : A -> string;
  strftime_ymd : Date -> string;
  strftime_hms : DateTime -> string
}.

Section Views.
Context {A : Type} `{Number A}.

(** *** Sidebar summary (lines 256-268) *)

(** [max(0, x)]: [x] replaces [0] only when [x > 0]. *)
Definition py_max0 (x : A) : A := if num_gtb x num_zero then x else num_zero.

(** The three metrics with the delta of the last one, and the value given
    to [st.progress] when the bar is drawn. *)
Record summary := mkSummary {
  metric_initial_balance : A;
  metric_total_expenses : A;
  metric_current_balance : A;
  metric_delta : A;
  progress_bar : option A
}.

(** [None] when the ledger is not initialized: the sidebar then holds the
    reset button only. *)
Definition sidebar_summary `{Division A} (st : session_state A) : option summary :=
  if is_initialized st then
    let current_balance := calculate_current_balance st in
    let total_expenses := py_sum (amount <$> transactions st) in
    Some (mkSummary (initial_balance st) total_expenses current_balance
            (num_sub current_balance (initial_balance st))
            (if num_gtb (initial_balance st) num_zero then
               let progress := py_max0 (num_div current_balance (initial_balance st)) in
               Some progress
             else None))
  else None.

(** *** Transaction history (lines 202-230) *)

Record history_row := mkRow {
  Date_cell : string;
  Description_cell : string;
  Amount_cell : string;
  Time_cell : string
}.

Definition history_row_of `{Formatting A} (t : transaction A) : history_row :=
  mkRow (strftime_ymd (date t)) (description t) (format_rupees (amount t))
        (strftime_hms (timestamp t)).

(** Either the [st.info] line or the table. *)
Inductive history_view :=
  | info_no_transactions
  | history_table (rows : list history_row).

Definition display_transaction_history `{Formatting A} (st : session_state A)
    : history_view :=
  match transactions st with
  | [] => info_no_transactions
  | _ :: _ => history_table (history_row_of <$> reverse (transactions st))
  end.

(** *** Charts and history on the dashboard (lines 363-384) *)

Inductive element :=
  | horizontal_rule
  | balance_chart (fig : figure A)
  | expense_chart (fig : pie A)
  | info_breakdown_hint
  | transaction_history (h : history_view).

(** What the dashboard shows below the expense form; [today] is what
    [date.today()] returns while the balance chart is built. *)
Definition visualizations `{Formatting A} (st : session_state A) (today : Date)
    : list element :=
  match transactions st with
  | [] => []
  | _ :: _ =>
      [horizontal_rule]
      ++ match create_balance_visualization st today with
         | Some fig => [balance_chart fig]
         | None => []
         end
      ++ match create_expense_breakdown st with
         | Some fig => [expense_chart fig]
         | None => [info_breakdown_hint]
         end
      ++ [horizontal_rule; transaction_history (display_transaction_history st)]
  end.

End Views.

Arguments summary : clear implicits.
Arguments element : clear implicits.

(** ** The operations as the specification words them

    Section 4.1 of the specification describes the three commands as
    operations with typed failures.  The script has no error type: a command
    is refused either by an [st.error] alert or by its button not being on
    the page.  The definitions below follow the specification's words and
    are compared with [main] in the results on the commands. *)
Module Spec.
Section Operations.
Context {A : Type} `{Number A}.

Inductive error := InvalidAmount | NotInitialized | AlreadyInitialized.

Definition setInitialBalance (l : session_state A) (amount : A)
    : error + session_state A :=
  if is_initialized l then inl AlreadyInitialized
  else if num_gtb amount num_zero then inr (mkState (transactions l) amount true)
  else inl InvalidAmount.

Definition addExpense (l : session_state A) (clk : clock) (amount : A)
    (description : string) : error + session_state A :=
  if negb (is_initialized l) then inl NotInitialized
  else if negb (num_gtb amount num_zero) then inl InvalidAmount
  else
    let label := if String.eqb description "" then "General Expense" else description in
    inr (mkState (transactions l ++ [mkTransaction amount label (now clk) (today clk)])
           (initial_balance l) (is_initialized l)).

Definition reset (l : session_state A) : session_state A :=
  mkState [] num_zero false.

(** The specification's command for each interaction of the page. *)
Definition exec (l : session_state A) (ev : interaction A) (clk : clock)
    : error + session_state A :=
  match ev with
  | NoClick => inr l
  | ClickReset => inr (reset l)
  | ClickSetBalance amount => setInitialBalance l amount
  | ClickAddExpense amount description => addExpense l clk amount description
  end.

End Operations.
End Spec.

(** The ledger of a new session. *)
Definition fresh {A : Type} `{Number A} : session_state A :=
  initialize_session_state new_session.

(** ** Sample ledgers (amounts in whole rupees) *)

Definition may (d : Z) : Date := mkDate 2024 5 d.
Definition morning (d : Z) : clock := mkClock (mkDateTime (may d) 9 30 0 0) (may d).

(** 1000 initial; Groceries 200 on May 1, Gas 150 on May 2. *)
Definition groceries_gas : session_state Z :=
  mkState [mkTransaction 200%Z "Groceries" (now (morning 1)) (may 1);
           mkTransaction 150%Z "Gas" (now (morning 2)) (may 2)]
    1000%Z true.

(** 100 initial; Rent 150. *)
Definition overdrawn : session_state Z :=
  mkState [mkTransaction 150%Z "Rent" (now (morning 1)) (may 1)] 100%Z true.

(** Float ledgers: 1.00 initial with expenses 0.01 and 0.06; and three
    expenses 0.01 (Tea), 0.02 (Bus), 0.11 (Tea). *)
Definition small_change : session_state float :=
  mkState [mkTransaction (paise 1) "Tea" (now (morning 1)) (may 1);
           mkTransaction (paise 6) "Bus" (now (morning 1)) (may 1)]
    1%float true.

Definition tea_bus_tea : session_state float :=
  mkState [mkTransaction (paise 1) "Tea" (now (morning 1)) (may 1);
           mkTransaction (paise 2) "Bus" (now (morning 1)) (may 1);
           mkTransaction (paise 11) "Tea" (now (morning 2)) (may 2)]
    1%float true.

(** A ledger on rationals: 1000 initial, Rent 250, then Tea 10. *)
Definition rent_and_tea : session_state Qcanon.Qc :=
  run fresh [(ClickSetBalance (Qc_of_Z 1000), morning 1);
             (ClickAddExpense (Qc_of_Z 250) "Rent", morning 1);
             (ClickAddExpense (Qc_of_Z 10) "Tea", morning 2)].

(** Formatting for ledgers in whole rupees: [150] reads ["Rs150.00"], a
    date ["2024-05-01"], a time ["09:30:00"]. *)
Definition two_digits (n : Z) : string :=
  if (n <? 10)%Z then "0" +:+ pretty n else pretty n.

#[export] Instance whole_rupees_Formatting : Formatting Z := {|
  format_rupees := fun x => "Rs" +:+ pretty x +:+ ".00";
  strftime_ymd := fun d =>
    pretty (year d) +:+ "-" +:+ two_digits (month d) +:+ "-" +:+ two_digits (day d);
  strftime_hms := fun t =>
    two_digits (hour t) +:+ ":" +:+ two_digits (minute t) +:+ ":" +:+ two_digits (second t)
|}.

(** ** Helper lemmas *)

(** The integers (amounts counted in paise) are an exact number type. *)
#[export] Instance Z_OrderedNumber : OrderedNumber Z.
Proof.
  split; simpl; intros; lia.
Qed.

#[export] Instance Z_ExactNumber : ExactNumber Z.
Proof.
  split; simpl; intros; lia.
Qed.

Section Sums.
Context {A : Type} `{ExactNumber A}.

Lemma num_add_0_r (x : A) : num_add x num_zero = x.
Proof. rewrite num_add_comm. apply num_add_0_l. Qed.

Lemma fold_left_add_total (xs : list A) (acc : A) :
  fold_left num_add xs acc = num_add acc (total xs).
Proof.
  revert acc. induction xs as [|x xs IH]; intros acc; simpl.
  - now rewrite num_add_0_r.
  - rewrite IH. now rewrite num_add_assoc.
Qed.

(** Python's left-to-right [sum] computes the sum. *)
Lemma py_sum_total (xs : list A) : py_sum xs = total xs.
Proof. unfold py_sum. rewrite fold_left_add_total. apply num_add_0_l. Qed.

Lemma total_app (xs ys : list A) : total (xs ++ ys) = num_add (total xs) (total ys).
Proof.
  induction xs as [|x xs IH]; simpl.
  - now rewrite num_add_0_l.
  - rewrite IH. apply num_add_assoc.
Qed.

Lemma total_snoc (xs : list A) (x : A) : total (xs ++ [x]) = num_add (total xs) x.
Proof. rewrite total_app. simpl. now rewrite num_add_0_r. Qed.

Lemma total_perm (xs ys : list A) : xs ≡ₚ ys -> total xs = total ys.
Proof.
  induction 1 as [|x xs ys _ IH|x y xs|xs ys zs _ IH1 _ IH2]; simpl.
  - reflexivity.
  - now rewrite IH.
  - rewrite !num_add_assoc. now rewrite (num_add_comm y x).
  - now rewrite IH1.
Qed.

(** Subtracting one by one or subtracting the sum. *)
Lemma fold_left_sub_total (xs : list A) (r : A) :
  fold_left num_sub xs r = num_sub r (total xs).
Proof.
  revert r. induction xs as [|x xs IH]; intros r; simpl.
  - now rewrite num_sub_0_r.
  - rewrite IH. now rewrite num_sub_add_distr.
Qed.

End Sums.

Section Balance.
Context {A : Type} `{Number A}.
Implicit Types (st : session_state A) (ts : list (transaction A)) (t : transaction A).

Lemma length_running_balances r ts : length (running_balances r ts) = length ts.
Proof. revert r. induction ts as [|t ts IH]; intros r; simpl; [done|]. by rewrite IH. Qed.

(** The loop appends the cumulative balances and the dates, and ends on the
    balance obtained by subtracting the amounts one by one. *)
Lemma balance_loop_eq ts r bh ds :
  balance_loop ts r bh ds =
    (fold_left num_sub (amount <$> ts) r, bh ++ running_balances r ts, ds ++ (date <$> ts)).
Proof.
  revert r bh ds. induction ts as [|t ts IH]; intros r bh ds; simpl.
  - by rewrite !app_nil_r.
  - rewrite IH. by rewrite <- !app_assoc.
Qed.

Lemma balance_frame_nil st today :
  transactions st = [] -> balance_frame st today = None.
Proof. unfold balance_frame. by intros ->. Qed.

Lemma balance_frame_cons st today t0 ts' :
  transactions st = t0 :: ts' ->
  balance_frame st today =
    Some (mkFrame (date t0 :: (date <$> transactions st))
            (initial_balance st :: running_balances (initial_balance st) (transactions st))
            (seq 0 (S (length (transactions st))))).
Proof.
  intros Hts. unfold balance_frame. rewrite balance_loop_eq.
  destruct (transactions st) as [|t1 ts1]; [done|]. simplify_eq.
  simpl. by rewrite length_running_balances.
Qed.

(** Consecutive entries of the balance column differ by the amount of the
    transaction between them. *)
Lemma running_balances_step ts r i t b :
  ts !! i = Some t ->
  (r :: running_balances r ts) !! i = Some b ->
  (r :: running_balances r ts) !! S i = Some (num_sub b (amount t)).
Proof.
  revert r i b. induction ts as [|t' ts IH]; intros r i b Ht Hb; [done|].
  destruct i as [|i]; simpl in *.
  - by simplify_eq.
  - by apply IH.
Qed.

Lemma last_running_balances ts r :
  last (r :: running_balances r ts) = Some (fold_left num_sub (amount <$> ts) r).
Proof.
  revert r. induction ts as [|t ts IH]; intros r; [done|].
  simpl running_balances. rewrite last_cons_cons. by rewrite IH.
Qed.

Lemma points_lookup (df : DataFrame A) n i d b :
  Transaction_col df = seq 0 n -> i < n ->
  Date_col df !! i = Some d -> Balance_col df !! i = Some b ->
  points df !! i = Some (i, d, b).
Proof.
  intros Hx Hi Hd Hb. unfold points.
  rewrite !lookup_zip_with, Hx, lookup_seq_lt, Hd, Hb by done. done.
Qed.

Lemma length_points (df : DataFrame A) n :
  Transaction_col df = seq 0 n -> length (Date_col df) = n ->
  length (Balance_col df) = n -> length (points df) = n.
Proof.
  intros Hx Hd Hb. unfold points.
  rewrite !length_zip_with, Hx, length_seq, Hd, Hb. lia.
Qed.

(** C2: the running-balance series is absent on an empty ledger; otherwise
    it has one point more than there are transactions, its first point is
    (0, date of the first transaction, initial balance), and for the i-th
    transaction the point after it carries that transaction's date and the
    previous point's balance minus that transaction's amount, in ledger
    order.  The returned figure plots the index and balance columns of that
    series. *)
Theorem running_balance_series st today :
  (transactions st = [] ->
     balance_frame st today = None /\ create_balance_visualization st today = None) /\
  (transactions st <> [] ->
     exists df,
       balance_frame st today = Some df /\
       create_balance_visualization st today
         = Some (mkFigure (Transaction_col df) (Balance_col df)) /\
       length (points df) = length (transactions st) + 1 /\
       (exists t0, head (transactions st) = Some t0 /\
                   points df !! 0 = Some (0, date t0, initial_balance st)) /\
       (forall i t, transactions st !! i = Some t ->
          exists d b, points df !! i = Some (i, d, b) /\
                      points df !! S i = Some (S i, date t, num_sub b (amount t)))).
Proof.
  split.
  - intros Hnil. unfold create_balance_visualization.
    by rewrite (balance_frame_nil _ _ Hnil).
  - intros Hne.
    assert (exists t0 ts', transactions st = t0 :: ts') as (t0 & ts' & Hts)
      by (destruct (transactions st); [done | eauto]).
    pose proof (balance_frame_cons st today t0 ts' Hts) as Hdf.
    eexists. split; [exact Hdf|].
    split; [|split; [|split]].
    + unfold create_balance_visualization. by rewrite Hdf.
    + rewrite (length_points _ (S (length (transactions st)))); simpl;
        rewrite ?length_fmap, ?length_running_balances; first [done | lia].
    + exists t0. split; [by rewrite Hts|].
      apply (points_lookup _ (S (length (transactions st)))); simpl; done || lia.
    + intros i t Hi.
      pose proof (lookup_lt_Some _ _ _ Hi) as Hlt.
      destruct (lookup_lt_is_Some_2
                  (initial_balance st :: running_balances (initial_balance st) (transactions st)) i)
        as [b Hb]; [simpl; rewrite length_running_balances; lia|].
      destruct (lookup_lt_is_Some_2 (date t0 :: (date <$> transactions st)) i)
        as [d Hd]; [simpl; rewrite length_fmap; lia|].
      exists d, b. split.
      * apply (points_lookup _ (S (length (transactions st)))); simpl; done || lia.
      * apply (points_lookup _ (S (length (transactions st)))); simpl; try done; try lia.
        -- by rewrite list_lookup_fmap, Hi.
        -- by apply running_balances_step.
Qed.

End Balance.

Section SeriesEnd.
Context {A : Type} `{Number A}.
Implicit Types (st : session_state A).

(** On exact numbers the current balance is the initial balance with the
    amounts subtracted one by one. *)
Lemma current_balance_fold `{!ExactNumber A} st :
  is_initialized st = true ->
  calculate_current_balance st
    = fold_left num_sub (amount <$> transactions st) (initial_balance st).
Proof.
  intros Hinit. unfold calculate_current_balance. rewrite Hinit. simpl.
  by rewrite py_sum_total, fold_left_sub_total.
Qed.

(** C9, amended: on an initialized ledger with at least one transaction the
    last point of the running-balance series carries the initial balance
    with the amounts subtracted one at a time in ledger order; this is the
    current balance whenever the arithmetic of the amounts is exact. *)
Theorem series_ends_on_current_balance st today :
  is_initialized st = true -> transactions st <> [] ->
  exists df d,
    balance_frame st today = Some df /\
    last (Balance_col df)
      = Some (fold_left num_sub (amount <$> transactions st) (initial_balance st)) /\
    last (points df)
      = Some (length (transactions st), d,
              fold_left num_sub (amount <$> transactions st) (initial_balance st)) /\
    (ExactNumber A ->
       last (Balance_col df) = Some (calculate_current_balance st) /\
       last (points df)
         = Some (length (transactions st), d, calculate_current_balance st)).
Proof.
  intros Hinit Hne.
  assert (exists t0 ts', transactions st = t0 :: ts') as (t0 & ts' & Hts)
    by (destruct (transactions st); [done | eauto]).
  pose proof (balance_frame_cons st today t0 ts' Hts) as Hdf.
  pose proof (last_running_balances (transactions st) (initial_balance st)) as Hlast.
  destruct (lookup_lt_is_Some_2 (date t0 :: (date <$> transactions st)) (length (transactions st)))
    as [d Hd]; [simpl; rewrite length_fmap; lia|].
  assert (last (points (mkFrame (date t0 :: (date <$> transactions st))
                          (initial_balance st :: running_balances (initial_balance st) (transactions st))
                          (seq 0 (S (length (transactions st))))))
          = Some (length (transactions st), d,
                  fold_left num_sub (amount <$> transactions st) (initial_balance st))) as Hpt.
  { rewrite last_lookup.
    rewrite (length_points _ (S (length (transactions st)))); simpl;
      rewrite ?length_fmap, ?length_running_balances; try done.
    apply (points_lookup _ (S (length (transactions st)))); simpl; try done; try lia.
    rewrite last_lookup in Hlast. simpl in Hlast.
    by rewrite length_running_balances in Hlast. }
  eexists. exists d. split; [exact Hdf|]. split; [exact Hlast|]. split; [exact Hpt|].
  intros Hexact. rewrite (current_balance_fold st Hinit). by split.
Qed.

End SeriesEnd.


Section Aggregation.
Context {A : Type} `{Number A}.
Implicit Types (st : session_state A) (ts : list (transaction A)) (t : transaction A).
Implicit Types (m : gmap string A) (d : string).

Lemma expense_data_snoc ts t :
  expense_data (ts ++ [t]) = group_step (expense_data ts) t.
Proof. unfold expense_data. by rewrite fold_left_app. Qed.

Lemma dom_group_step m t : dom (group_step m t) = {[description t]} ∪ dom m.
Proof. unfold group_step. destruct (m !! description t); apply dom_insert_L. Qed.

(** The keys of the dict are the descriptions in use. *)
Lemma dom_expense_data ts : dom (expense_data ts) = descriptions ts.
Proof.
  unfold descriptions. induction ts as [|t ts IH] using rev_ind.
  - unfold expense_data. simpl. apply dom_empty_L.
  - rewrite expense_data_snoc, dom_group_step, IH, fmap_app, list_to_set_app_L.
    simpl. rewrite (right_id_L ∅ (∪)). apply (comm_L (∪)).
Qed.

Lemma size_expense_data ts : size (expense_data ts) = size (descriptions ts).
Proof. by rewrite <- dom_expense_data, size_dom. Qed.

Lemma group_snoc d ts t :
  group d (ts ++ [t]) = group d ts ++ (if decide (description t = d) then [t] else []).
Proof.
  unfold group. rewrite filter_app. f_equal.
Qed.

(** The chart is drawn exactly when two or more descriptions are in use. *)
Lemma create_expense_breakdown_eq st :
  create_expense_breakdown st =
    if decide (2 <= size (descriptions (transactions st))) then
      Some (mkPie (map_to_list (expense_data (transactions st))).*1
                  (map_to_list (expense_data (transactions st))).*2)
    else None.
Proof.
  unfold create_expense_breakdown.
  destruct (transactions st) as [|t0 ts'] eqn:Hts.
  - replace (descriptions []) with (∅ : gset string) by done.
    rewrite size_empty. by case_decide; [lia|].
  - rewrite size_expense_data.
    case_bool_decide; case_decide; done || lia.
Qed.

Lemma group_total_snoc (g : list (transaction A)) t :
  group_total (g ++ [t])
    = Some (match group_total g with
            | Some v => num_add v (amount t)
            | None => amount t
            end).
Proof.
  destruct g as [|t1 g]; [done|]. simpl.
  by rewrite fmap_app, fold_left_app.
Qed.

(** A label has an entry exactly when some transaction carries it, and the
    entry holds the amounts of that group added in ledger order. *)
Lemma expense_data_lookup ts d :
  expense_data ts !! d = group_total (group d ts).
Proof.
  induction ts as [|t ts IH] using rev_ind; [done|].
  rewrite expense_data_snoc, group_snoc. unfold group_step.
  destruct (decide (description t = d)) as [->|Hne].
  - rewrite group_total_snoc, <- IH.
    destruct (expense_data ts !! d); by rewrite lookup_insert_eq.
  - rewrite app_nil_r.
    destruct (expense_data ts !! description t); by rewrite lookup_insert_ne.
Qed.

End Aggregation.

Section ExactAggregation.
Context {A : Type} `{ExactNumber A}.
Implicit Types (st : session_state A) (ts : list (transaction A)) (t : transaction A).
Implicit Types (m : gmap string A) (d : string).

(** On exact numbers the entry of a group is the sum of its amounts. *)
Lemma group_total_exact t (g : list (transaction A)) :
  group_total (t :: g) = Some (total (amount <$> t :: g)).
Proof. simpl. by rewrite fold_left_add_total. Qed.

(** Each pass of the loop raises the sum of the entries by the amount. *)
Lemma total_group_step m t :
  total (map_to_list (group_step m t)).*2
    = num_add (total (map_to_list m).*2) (amount t).
Proof.
  unfold group_step. destruct (m !! description t) as [v|] eqn:Hm.
  - rewrite <- insert_delete_eq.
    rewrite (total_perm _ ((num_add v (amount t)) :: (map_to_list (delete (description t) m)).*2)).
    2:{ rewrite map_to_list_insert by apply lookup_delete_eq. done. }
    rewrite (total_perm (map_to_list m).*2 (v :: (map_to_list (delete (description t) m)).*2)).
    2:{ rewrite <- (map_to_list_delete m _ _ Hm). done. }
    simpl. rewrite <- !num_add_assoc. f_equal. apply num_add_comm.
  - rewrite (total_perm _ (amount t :: (map_to_list m).*2)).
    2:{ rewrite map_to_list_insert by done. done. }
    simpl. apply num_add_comm.
Qed.

Lemma total_expense_data ts :
  total (map_to_list (expense_data ts)).*2 = total (amount <$> ts).
Proof.
  induction ts as [|t ts IH] using rev_ind.
  - unfold expense_data. simpl. by rewrite map_to_list_empty.
  - rewrite expense_data_snoc, total_group_step, IH, fmap_app, total_app.
    simpl. by rewrite num_add_0_r.
Qed.

End ExactAggregation.

Section Breakdown.
Context {A : Type} `{Number A}.
Implicit Types (st : session_state A).

(** C3, amended: the breakdown has one entry per description, matched
    exactly (as strings, with no case folding or trimming), holding the
    amounts of the transactions with that description added in ledger order;
    no chart is returned when there are no transactions or fewer than two
    distinct descriptions, while with two or more the chart shows exactly
    those entries; and whenever the arithmetic of the amounts is exact, each
    entry is the sum of its group and the entries add up to the sum of all
    transaction amounts. *)
Theorem breakdown_by_description st :
  let m := expense_data (transactions st) in
  (forall d, m !! d = group_total (group d (transactions st))) /\
  (transactions st = [] \/ size (descriptions (transactions st)) < 2 ->
     create_expense_breakdown st = None) /\
  (2 <= size (descriptions (transactions st)) ->
     create_expense_breakdown st
       = Some (mkPie (map_to_list m).*1 (map_to_list m).*2)) /\
  (ExactNumber A ->
     (forall d t g, group d (transactions st) = t :: g ->
        m !! d = Some (total (amount <$> t :: g))) /\
     total (map_to_list m).*2 = total (amount <$> transactions st)).
Proof.
  intros m. subst m. split; [|split; [|split]].
  - intros d. apply expense_data_lookup.
  - intros Hfew. rewrite create_expense_breakdown_eq.
    case_decide as Hsz; [|done]. destruct Hfew as [Hnil|Hlt]; [|lia].
    rewrite Hnil in Hsz. replace (descriptions []) with (∅ : gset string) in Hsz by done.
    rewrite size_empty in Hsz. lia.
  - intros Hsz. rewrite create_expense_breakdown_eq. by case_decide.
  - intros Hexact. split.
    + intros d t g Hg. by rewrite expense_data_lookup, Hg, group_total_exact.
    + apply total_expense_data.
Qed.

End Breakdown.


Section Commands.
Context {A : Type} `{Number A}.
Implicit Types (st : session_state A) (ss : session_store A) (ev : interaction A).
Implicit Types (clk : clock) (amount : A) (descr : string).

Lemma initialize_store_of st : initialize_session_state (store_of st) = st.
Proof. by destruct st. Qed.

Lemma fresh_eq : fresh = mkState ([] : list (transaction A)) num_zero false.
Proof. done. Qed.

(** A run sees the store only through [initialize_session_state]. *)
Lemma main_store ss ev clk :
  main ss ev clk = main (store_of (initialize_session_state ss)) ev clk.
Proof. unfold main. by rewrite initialize_store_of. Qed.

Lemma main_reset ss clk :
  main ss ClickReset clk = mkOutcome fresh [success_reset] true.
Proof. done. Qed.

Lemma main_setup st ev clk :
  is_initialized st = false ->
  main (store_of st) ev clk =
    match ev with
    | ClickReset => mkOutcome fresh [success_reset] true
    | ClickSetBalance b =>
        if num_gtb b num_zero
        then mkOutcome (mkState (transactions st) b true) [success_balance_set b] true
        else mkOutcome st [error_positive_amount] false
    | _ => mkOutcome st [] false
    end.
Proof.
  intros Hinit. unfold main. rewrite initialize_store_of, Hinit.
  by destruct ev.
Qed.

Lemma main_dashboard st ev clk :
  is_initialized st = true ->
  main (store_of st) ev clk =
    match ev with
    | ClickReset => mkOutcome fresh [success_reset] true
    | ClickAddExpense a d =>
        if num_gtb a num_zero
        then
          let st' := add_transaction st clk a (Some (if py_bool d then d else "General Expense")) in
          mkOutcome st'
            [if num_ltb (calculate_current_balance st') num_zero then error_exceeded_balance
             else if num_eqb (calculate_current_balance st') num_zero then warning_spent_all
             else success_expense_added a] true
        else mkOutcome st [error_valid_amount] false
    | _ => mkOutcome st [] false
    end.
Proof.
  intros Hinit. unfold main. rewrite initialize_store_of, Hinit.
  by destruct ev.
Qed.

(** The state a run leaves is the one the specification's command asks
    for, and a command the specification fails leaves the ledger as it
    was. *)
Lemma main_refines_spec st ev clk :
  step st ev clk =
    match Spec.exec st ev clk with
    | inr st' => st'
    | inl _ => st
    end.
Proof.
  unfold step. destruct (is_initialized st) eqn:Hinit.
  - rewrite main_dashboard by done. destruct ev as [| |b|a d]; simpl;
      unfold Spec.setInitialBalance, Spec.addExpense, Spec.reset; rewrite ?Hinit; simpl; try done.
    destruct (num_gtb a num_zero); simpl; [|done].
    unfold add_transaction, py_bool. destruct (String.eqb d ""); simpl; by rewrite Hinit.
  - rewrite main_setup by done. destruct ev as [| |b|a d]; simpl;
      unfold Spec.setInitialBalance, Spec.addExpense, Spec.reset; rewrite ?Hinit; simpl; try done.
    by destruct (num_gtb b num_zero).
Qed.

(** How the page shows each failure of the specification: an invalid amount
    by an error alert, a command that does not fit the ledger's state by
    showing nothing (its button is not on the page). *)
Lemma main_failure_alerts st ev clk e :
  Spec.exec st ev clk = inl e ->
  rerun (main (store_of st) ev clk) = false /\
  match e with
  | Spec.InvalidAmount =>
      exists a, alerts (main (store_of st) ev clk) = [a] /\ is_error a = true
  | Spec.NotInitialized | Spec.AlreadyInitialized =>
      alerts (main (store_of st) ev clk) = []
  end.
Proof.
  destruct (is_initialized st) eqn:Hinit.
  - rewrite main_dashboard by done. destruct ev as [| |b|a d]; simpl;
      unfold Spec.setInitialBalance, Spec.addExpense, Spec.reset; rewrite ?Hinit; simpl; try done.
    + by intros [= <-].
    + destruct (num_gtb a num_zero); simpl; [done|].
      intros [= <-]. split; [done|]. by eexists.
  - rewrite main_setup by done. destruct ev as [| |b|a d]; simpl;
      unfold Spec.setInitialBalance, Spec.addExpense, Spec.reset; rewrite ?Hinit; simpl; try done.
    + destruct (num_gtb b num_zero); simpl; [done|].
      intros [= <-]. split; [done|]. by eexists.
    + by intros [= <-].
Qed.

(** [add_transaction] itself checks nothing: the guard is the branch of
    [main] it is called from. *)
Lemma add_transaction_unguarded st clk amount d :
  length (transactions (add_transaction st clk amount d)) = S (length (transactions st)).
Proof. unfold add_transaction. simpl. rewrite length_app. simpl. lia. Qed.

(** In every reachable ledger that is not initialized the balance is 0 and
    there are no transactions. *)
Lemma reachable_uninitialized st :
  reachable st -> is_initialized st = false ->
  initial_balance st = num_zero /\ transactions st = [].
Proof.
  induction 1 as [clk|st ev clk Hreach IH]; [done|].
  unfold step. destruct (is_initialized st) eqn:Hinit.
  - rewrite main_dashboard by done. destruct ev as [| |b|a d]; simpl; try done.
    + by rewrite Hinit.
    + by rewrite Hinit.
    + destruct (num_gtb a num_zero); simpl; by rewrite Hinit.
  - rewrite main_setup by done. destruct ev as [| |b|a d]; simpl; try by auto.
    destruct (num_gtb b num_zero); simpl; [done | by auto].
Qed.

(** Without a reset an initialized ledger stays initialized and keeps its
    initial balance. *)
Lemma step_keeps_initial_balance st ev clk :
  is_initialized st = true -> ev <> ClickReset ->
  is_initialized (step st ev clk) = true /\
  initial_balance (step st ev clk) = initial_balance st.
Proof.
  intros Hinit Hev. unfold step. rewrite main_dashboard by done.
  destruct ev as [| |b|a d]; simpl; try done.
  destruct (num_gtb a num_zero); simpl; done.
Qed.

Lemma run_keeps_initial_balance st (evs : list (interaction A * clock)) :
  is_initialized st = true -> Forall (fun e => e.1 <> ClickReset) evs ->
  is_initialized (run st evs) = true /\
  initial_balance (run st evs) = initial_balance st.
Proof.
  intros Hinit Hevs. revert st Hinit.
  induction Hevs as [|[ev clk] evs Hev _ IH]; intros st Hinit; [done|].
  simpl in Hev. unfold run. simpl. fold (run (step st ev clk) evs).
  destruct (step_keeps_initial_balance st ev clk Hinit Hev) as [Hi Hb].
  destruct (IH _ Hi) as [Hi' Hb']. split; [done|]. by rewrite Hb'.
Qed.

(** C4: on a ledger that is not initialized an add-expense command is
    refused for every amount: the specification's command fails with
    NotInitialized, and the run of [main] leaves the ledger as it was, shows
    nothing and appends no transaction, so that the transaction list of a
    reachable ledger stays empty. *)
Theorem add_expense_requires_initialized st amount descr clk :
  is_initialized st = false ->
  Spec.addExpense st clk amount descr = inl Spec.NotInitialized /\
  main (store_of st) (ClickAddExpense amount descr) clk = mkOutcome st [] false /\
  transactions (step st (ClickAddExpense amount descr) clk) = transactions st /\
  (reachable st -> transactions (step st (ClickAddExpense amount descr) clk) = []).
Proof.
  intros Hinit. unfold step. rewrite main_setup by done. simpl.
  split; [|split; [done|split; [done|]]].
  - unfold Spec.addExpense. by rewrite Hinit.
  - intros Hreach. by apply reachable_uninitialized.
Qed.

(** C5: on a ledger that is not initialized a set-balance command with an
    amount less than or equal to 0 fails with InvalidAmount: [main] shows
    the error alert and leaves the ledger unchanged, so it is still not
    initialized and its initial balance is not set. *)
Theorem set_balance_rejects_nonpositive `{!OrderedNumber A} st amount clk :
  is_initialized st = false -> num_le amount num_zero ->
  Spec.setInitialBalance st amount = inl Spec.InvalidAmount /\
  main (store_of st) (ClickSetBalance amount) clk
    = mkOutcome st [error_positive_amount] false /\
  is_initialized (step st (ClickSetBalance amount) clk) = false /\
  initial_balance (step st (ClickSetBalance amount) clk) = initial_balance st.
Proof.
  intros Hinit Hle.
  assert (num_gtb amount num_zero = false) as Hgt.
  { unfold num_gtb. destruct Hle as [Hlt| ->].
    - by apply num_ltb_asym.
    - apply num_ltb_irrefl. }
  unfold step. rewrite main_setup by done. rewrite Hgt. simpl.
  split; [|done]. unfold Spec.setInitialBalance. by rewrite Hinit, Hgt.
Qed.

(** C6: after any sequence of interactions a reset leaves, in one run, the
    state with no transactions, initial balance 0 and not initialized, which
    is the ledger of a new session; the current balance, the running-balance
    series, the balance chart and the breakdown are then those of a new
    session. *)
Theorem reset_restores_fresh_ledger st (evs : list (interaction A * clock)) clk day :
  step (run st evs) ClickReset clk = mkState [] num_zero false /\
  step (run st evs) ClickReset clk = fresh /\
  calculate_current_balance (step (run st evs) ClickReset clk)
    = calculate_current_balance fresh /\
  balance_frame (step (run st evs) ClickReset clk) day = balance_frame fresh day /\
  create_balance_visualization (step (run st evs) ClickReset clk) day
    = create_balance_visualization fresh day /\
  create_expense_breakdown (step (run st evs) ClickReset clk)
    = create_expense_breakdown fresh.
Proof.
  assert (step (run st evs) ClickReset clk = fresh) as -> by done.
  by rewrite fresh_eq.
Qed.

(** C7: on an initialized ledger a set-balance command is refused for every
    amount: the specification's command fails with AlreadyInitialized, the
    run of [main] changes nothing and shows nothing, and as long as no reset
    occurs the ledger stays initialized with the same initial balance. *)
Theorem set_balance_once st amount clk :
  is_initialized st = true ->
  Spec.setInitialBalance st amount = inl Spec.AlreadyInitialized /\
  main (store_of st) (ClickSetBalance amount) clk = mkOutcome st [] false /\
  (forall evs : list (interaction A * clock),
     Forall (fun e => e.1 <> ClickReset) evs ->
     is_initialized (run st evs) = true /\
     initial_balance (run st evs) = initial_balance st).
Proof.
  intros Hinit. split; [|split].
  - unfold Spec.setInitialBalance. by rewrite Hinit.
  - by rewrite main_dashboard.
  - intros evs Hevs. by apply run_keeps_initial_balance.
Qed.

(** C8: an add-expense command that succeeds (initialized ledger, amount
    above 0) appends one transaction with that amount, stamped with the
    clock; its description is "General Expense" when the description given
    is empty and the given description, unchanged, otherwise. *)
Theorem add_expense_description st (a : A) descr clk :
  is_initialized st = true -> num_gtb a num_zero = true ->
  exists t,
    transactions (step st (ClickAddExpense a descr) clk) = transactions st ++ [t] /\
    amount t = a /\ timestamp t = now clk /\ date t = today clk /\
    (descr = "" -> description t = "General Expense") /\
    (descr <> "" -> description t = descr).
Proof.
  intros Hinit Hpos. unfold step. rewrite main_dashboard by done.
  rewrite Hpos. simpl. eexists. split; [done|]. simpl.
  split; [done|]. split; [done|]. split; [done|].
  unfold py_bool. split.
  - by intros ->.
  - intros Hne. apply String.eqb_neq in Hne. by rewrite Hne.
Qed.

(** C10: in every state reachable from a new session through runs of
    [main], a ledger that is not initialized has initial balance 0 and no
    transactions; put the other way round, a reachable ledger with a nonzero
    balance or with a transaction is initialized. *)
Theorem uninitialized_ledger_is_empty st :
  reachable st ->
  (is_initialized st = false -> initial_balance st = num_zero /\ transactions st = []) /\
  (initial_balance st <> num_zero \/ transactions st <> [] -> is_initialized st = true).
Proof.
  intros Hreach. split.
  - by apply reachable_uninitialized.
  - intros Hnonempty. destruct (is_initialized st) eqn:Hinit; [done|].
    destruct (reachable_uninitialized st Hreach Hinit) as [Hb Hts].
    by destruct Hnonempty.
Qed.

End Commands.

Section CurrentBalance.
Context {A : Type} `{Number A}.
Implicit Types (st : session_state A).

(** Valid add-expense commands append their amounts, in order, and leave
    the initial balance alone. *)
Lemma run_add_expenses st (xs : list (A * string * clock)) :
  is_initialized st = true ->
  Forall (fun x => num_gtb x.1.1 num_zero = true) xs ->
  is_initialized (run st (add_expenses xs)) = true /\
  initial_balance (run st (add_expenses xs)) = initial_balance st /\
  amount <$> transactions (run st (add_expenses xs))
    = (amount <$> transactions st) ++ xs.*1.*1.
Proof.
  intros Hinit Hxs. revert st Hinit.
  induction Hxs as [|[[a d] clk] xs Hpos _ IH]; intros st Hinit.
  - simpl. by rewrite app_nil_r.
  - simpl in Hpos. unfold run. simpl.
    fold (run (step st (ClickAddExpense a d) clk) (add_expenses xs)).
    assert (step st (ClickAddExpense a d) clk
            = add_transaction st clk a (Some (if py_bool d then d else "General Expense")))
      as Hstep.
    { unfold step. rewrite main_dashboard by done. by rewrite Hpos. }
    rewrite Hstep.
    destruct (IH (add_transaction st clk a
                    (Some (if py_bool d then d else "General Expense"))) Hinit)
      as (Hi & Hb & Hts).
    split; [done|]. split; [done|].
    rewrite Hts. simpl. by rewrite fmap_app, <- app_assoc.
Qed.

(** C1: the current balance is 0 on a ledger that is not initialized; on
    an initialized one it is the initial balance minus the sum of all
    transaction amounts (as [sum] adds them, which on exact numbers is their
    sum), and it is not clamped: when the expenses exceed the initial balance
    the result is negative.  In particular, after setting a balance and any
    sequence of valid add-expense commands it is that balance minus the sum
    of the amounts. *)
Theorem current_balance_spec `{!OrderedNumber A} st :
  (is_initialized st = false -> calculate_current_balance st = num_zero) /\
  (is_initialized st = true ->
     calculate_current_balance st
       = num_sub (initial_balance st) (py_sum (amount <$> transactions st))) /\
  (is_initialized st = true ->
     num_ltb (initial_balance st) (py_sum (amount <$> transactions st)) = true ->
     num_ltb (calculate_current_balance st) num_zero = true) /\
  (forall b clk (xs : list (A * string * clock)),
     num_gtb b num_zero = true ->
     Forall (fun x => num_gtb x.1.1 num_zero = true) xs ->
     calculate_current_balance (run fresh ((ClickSetBalance b, clk) :: add_expenses xs))
       = num_sub b (py_sum xs.*1.*1)) /\
  (ExactNumber A ->
     py_sum (amount <$> transactions st) = total (amount <$> transactions st)).
Proof.
  unfold calculate_current_balance at 1 2 3.
  split; [|split; [|split; [|split]]].
  - by intros ->.
  - by intros ->.
  - intros -> Hlt. simpl. by apply num_ltb_sub_neg.
  - intros b clk xs Hb Hxs. unfold run. simpl.
    fold (run (step fresh (ClickSetBalance b) clk) (add_expenses xs)).
    assert (step fresh (ClickSetBalance b) clk = mkState [] b true) as ->.
    { unfold step. rewrite main_setup by done. by rewrite Hb. }
    destruct (run_add_expenses (mkState [] b true) xs eq_refl Hxs) as (Hi & Hbal & Hts).
    unfold calculate_current_balance. by rewrite Hi, Hbal, Hts.
  - intros Hexact. apply py_sum_total.
Qed.

End CurrentBalance.

Section ExactCommands.
Context {A : Type} `{ExactNumber A}.

(** X16: on exact numbers a successful add-expense lowers the current
    balance by exactly the amount. *)
Lemma balance_after_expense (st : session_state A) (a : A) descr clk :
  is_initialized st = true -> num_gtb a num_zero = true ->
  calculate_current_balance (step st (ClickAddExpense a descr) clk)
    = num_sub (calculate_current_balance st) a.
Proof.
  intros Hinit Hpos. unfold step. rewrite main_dashboard by done.
  rewrite Hpos. simpl. unfold calculate_current_balance, add_transaction. simpl.
  rewrite Hinit. simpl. rewrite !py_sum_total, fmap_app, total_app. simpl.
  by rewrite num_add_0_r, num_sub_add_distr.
Qed.

End ExactCommands.

(** ** The scenarios of the specification, run on integer amounts *)

Example scenario_groceries_gas :
  run fresh [(ClickSetBalance 1000%Z, morning 1);
             (ClickAddExpense 200%Z "Groceries", morning 1);
             (ClickAddExpense 150%Z "Gas", morning 2)] = groceries_gas
  /\ calculate_current_balance groceries_gas = 650%Z
  /\ expense_data (transactions groceries_gas) = {[ "Groceries" := 200%Z; "Gas" := 150%Z ]}.
Proof. split; [reflexivity|]. split; [reflexivity|]. by apply map_eq; intros d; vm_compute. Qed.

Example scenario_overdrawn :
  run fresh [(ClickSetBalance 100%Z, morning 1); (ClickAddExpense 150%Z "Rent", morning 1)]
    = overdrawn
  /\ calculate_current_balance overdrawn = (-50)%Z.
Proof. split; reflexivity. Qed.

Example scenario_expense_before_balance :
  run fresh [(ClickAddExpense 10%Z "", morning 1)] = (fresh : session_state Z).
Proof. reflexivity. Qed.

(** Labels are compared as they are: case and surrounding blanks count, and
    a description made of blanks only is kept. *)
Example labels_are_exact :
  descriptions
    (transactions
       (run groceries_gas [(ClickAddExpense 5%Z "gas", morning 3);
                           (ClickAddExpense 7%Z "Gas ", morning 3);
                           (ClickAddExpense 9%Z " ", morning 3);
                           (ClickAddExpense 11%Z "", morning 3)]))
  = {[ "Groceries"; "Gas"; "gas"; "Gas "; " "; "General Expense" ]}.
Proof. apply set_eq. intros d. vm_compute. tauto. Qed.

(** Witness of C2: the ledger 1000, Groceries 200, Gas 150. *)
Lemma running_balance_series_witness :
  exists df,
    balance_frame groceries_gas (may 3) = Some df /\ length (points df) = 3.
Proof.
  destruct (running_balance_series groceries_gas (may 3)) as [_ Hsome].
  destruct Hsome as (df & Hdf & _ & Hlen & _); [discriminate|].
  exists df. split; [exact Hdf | exact Hlen].
Defined.

(** Witness of C1: 100 initial, Rent 150, balance -50. *)
Lemma current_balance_spec_witness :
  calculate_current_balance overdrawn = (-50)%Z /\
  num_ltb (calculate_current_balance overdrawn) 0%Z = true.
Proof.
  destruct (current_balance_spec overdrawn) as (_ & Hval & Hneg & _).
  split; [exact (Hval eq_refl) | apply Hneg; reflexivity].
Defined.

(** Witness of C9: the ledger 1000, Groceries 200, Gas 150 ends on 650. *)
Lemma series_ends_on_current_balance_witness :
  exists df d,
    balance_frame groceries_gas (may 3) = Some df /\
    last (Balance_col df) = Some 650%Z /\
    last (points df) = Some (2, d, 650%Z).
Proof.
  destruct (series_ends_on_current_balance groceries_gas (may 3))
    as (df & d & Hdf & _ & _ & Hexact); [reflexivity | discriminate |].
  destruct (Hexact Z_ExactNumber) as [Hlast Hpt].
  exists df, d. split; [exact Hdf|]. split; [exact Hlast | exact Hpt].
Defined.

(** Witness of C3: Groceries 200 and Gas 150 give the breakdown
    {Groceries: 200, Gas: 150}, which adds up to 350. *)
Lemma breakdown_by_description_witness :
  expense_data (transactions groceries_gas) !! "Groceries" = Some 200%Z /\
  expense_data (transactions groceries_gas) !! "Gas" = Some 150%Z /\
  expense_data (transactions groceries_gas) !! "gas" = None /\
  total (map_to_list (expense_data (transactions groceries_gas))).*2 = 350%Z.
Proof.
  destruct (breakdown_by_description groceries_gas) as (Hgrp & _ & _ & Hexact).
  destruct (Hexact Z_ExactNumber) as [_ Hsum].
  split; [exact (Hgrp "Groceries")|].
  split; [exact (Hgrp "Gas")|].
  split; [exact (Hgrp "gas") | exact Hsum].
Defined.

(** Witness of C4: an expense of 10 on a new session. *)
Lemma add_expense_requires_initialized_witness :
  main (store_of fresh) (ClickAddExpense 10%Z "") (morning 1) = mkOutcome fresh [] false /\
  transactions (step fresh (ClickAddExpense 10%Z "") (morning 1)) = [].
Proof.
  destruct (add_expense_requires_initialized fresh 10%Z "" (morning 1) eq_refl)
    as (_ & Hmain & _ & Hreach).
  split; [exact Hmain|]. apply Hreach. exact (reachable_start (morning 1)).
Defined.

(** Witness of C5: the amounts 0 and -5 on a new session. *)
Lemma set_balance_rejects_nonpositive_witness :
  main (store_of fresh) (ClickSetBalance 0%Z) (morning 1)
    = mkOutcome fresh [error_positive_amount] false /\
  is_initialized (step fresh (ClickSetBalance (-5)%Z) (morning 1)) = false.
Proof.
  split.
  - apply (set_balance_rejects_nonpositive fresh 0%Z (morning 1) eq_refl).
    right. reflexivity.
  - apply (set_balance_rejects_nonpositive fresh (-5)%Z (morning 1) eq_refl).
    left. reflexivity.
Defined.

(** Witness of C7: a second balance of 500 on the ledger started with 1000. *)
Lemma set_balance_once_witness :
  main (store_of groceries_gas) (ClickSetBalance 500%Z) (morning 3)
    = mkOutcome groceries_gas [] false /\
  initial_balance
    (run groceries_gas [(ClickSetBalance 500%Z, morning 3);
                        (ClickAddExpense 20%Z "Tea", morning 3)]) = 1000%Z.
Proof.
  destruct (set_balance_once groceries_gas 500%Z (morning 3) eq_refl)
    as (_ & Hmain & Hrun).
  split; [exact Hmain|]. apply Hrun.
  repeat constructor; discriminate.
Defined.

(** Witness of C8: an expense of 40 with an empty description. *)
Lemma add_expense_description_witness :
  exists t,
    transactions (step groceries_gas (ClickAddExpense 40%Z "" ) (morning 3))
      = transactions groceries_gas ++ [t] /\
    description t = "General Expense".
Proof.
  destruct (add_expense_description groceries_gas 40%Z "" (morning 3))
    as (t & Hts & _ & _ & _ & Hblank & _); [reflexivity | reflexivity |].
  exists t. split; [exact Hts | exact (Hblank eq_refl)].
Defined.

(** Witness of C10: the ledger of a new session. *)
Lemma uninitialized_ledger_is_empty_witness :
  initial_balance (fresh : session_state Z) = 0%Z /\
  transactions (fresh : session_state Z) = [].
Proof.
  destruct (uninitialized_ledger_is_empty (fresh : session_state Z)
              (reachable_start (morning 1))) as [Hempty _].
  apply Hempty. reflexivity.
Defined.

(** ** Python's floats are not exact

    The two results that need exact arithmetic fail on binary64 by one unit
    in the last place. *)

(** Counterexample of C9: with 1.00 initial and expenses 0.01 and 0.06 the
    series ends on 1.0 - 0.01 - 0.06 = 0.9299999999999999 while the current
    balance is 1.0 - (0.01 + 0.06) = 0.93. *)
Lemma series_end_differs_on_floats :
  is_initialized small_change = true /\
  transactions small_change <> [] /\
  exists df b,
    balance_frame small_change (may 1) = Some df /\
    last (Balance_col df) = Some b /\
    num_eqb b (calculate_current_balance small_change) = false /\
    last (Balance_col df) <> Some (calculate_current_balance small_change).
Proof.
  split; [reflexivity|]. split; [discriminate|].
  eexists. eexists. split; [reflexivity|]. split; [reflexivity|].
  split; [by vm_compute|].
  intros Heq.
  apply (f_equal (fun o => match o with
                           | Some v => PrimFloat.eqb v (calculate_current_balance small_change)
                           | None => false
                           end)) in Heq.
  vm_compute in Heq. discriminate.
Qed.

(** Counterexample of C3: with Tea 0.01, Bus 0.02, Tea 0.11 the entries are
    Tea 0.12 and Bus 0.02, which add up to 0.13999999999999999, while the
    amounts add up to 0.14 in either direction. *)
Lemma breakdown_sum_differs_on_floats :
  num_eqb (py_sum (map_to_list (expense_data (transactions tea_bus_tea))).*2)
          (py_sum (amount <$> transactions tea_bus_tea)) = false /\
  total (map_to_list (expense_data (transactions tea_bus_tea))).*2
    <> total (amount <$> transactions tea_bus_tea).
Proof.
  split; [by vm_compute|].
  intros Heq.
  apply (f_equal (fun v => PrimFloat.eqb v (total (amount <$> transactions tea_bus_tea)))) in Heq.
  vm_compute in Heq. discriminate.
Qed.

(** ** More of the page: what the runs of [main] keep true *)

Section PageInvariants.
Context {A : Type} `{Number A}.
Implicit Types (st : session_state A) (ss : session_store A) (ev : interaction A).
Implicit Types (clk : clock) (descr : string).

Lemma reachable_fresh : reachable (fresh : session_state A).
Proof. exact (reachable_start (mkClock (mkDateTime (mkDate 0 0 0) 0 0 0 0) (mkDate 0 0 0))). Qed.

Lemma reachable_run st (evs : list (interaction A * clock)) :
  reachable st -> reachable (run st evs).
Proof.
  revert st. induction evs as [|[ev clk] evs IH]; intros st Hst; [done|].
  unfold run. simpl. apply IH. by constructor.
Qed.

(** What every reachable ledger satisfies: a positive initial balance once
    initialized, positive amounts and non-empty descriptions. *)
Definition valid_ledger st : Prop :=
  (is_initialized st = true -> num_gtb (initial_balance st) num_zero = true) /\
  Forall (fun t => num_gtb (amount t) num_zero = true /\ description t <> "")
         (transactions st).

Lemma step_valid st ev clk : valid_ledger st -> valid_ledger (step st ev clk).
Proof.
  intros Hst. pose proof Hst as [Hbal Hts].
  unfold step. destruct (is_initialized st) eqn:Hinit.
  - rewrite main_dashboard by done. destruct ev as [| |b|a d]; simpl; try exact Hst.
    + split; [done | constructor].
    + destruct (num_gtb a num_zero) eqn:Ha; simpl; [|exact Hst].
      split; [by auto|]. apply Forall_app. split; [done|].
      constructor; [|constructor]. simpl. split; [done|].
      unfold py_bool. destruct (String.eqb d "") eqn:Hd; simpl; [done|].
      by apply String.eqb_neq.
  - rewrite main_setup by done. destruct ev as [| |b|a d]; simpl; try exact Hst.
    + split; [done | constructor].
    + destruct (num_gtb b num_zero) eqn:Hb; simpl; [|exact Hst]. by split.
Qed.

Lemma reachable_valid st : reachable st -> valid_ledger st.
Proof.
  induction 1 as [clk|st ev clk _ IH].
  - split; [done | constructor].
  - by apply step_valid.
Qed.

(** X1: a run that does not end in [st.rerun()] has left the session as it
    found it and shown no success alert; a run that does end in it shows
    exactly one alert. *)
Theorem run_without_rerun_changes_nothing ss ev clk :
  (rerun (main ss ev clk) = false ->
     state (main ss ev clk) = initialize_session_state ss /\
     Forall (fun a => is_success a = false) (alerts (main ss ev clk))) /\
  (rerun (main ss ev clk) = true -> exists a, alerts (main ss ev clk) = [a]).
Proof.
  rewrite main_store. set (st := initialize_session_state ss).
  destruct (is_initialized st) eqn:Hinit.
  - rewrite main_dashboard by done. destruct ev as [| |b|a d]; simpl.
    + split; [by split|done].
    + split; [done | by eexists].
    + split; [by split|done].
    + destruct (num_gtb a num_zero); simpl.
      * split; [done | by eexists].
      * split; [|done]. intros _. split; [done|]. by repeat constructor.
  - rewrite main_setup by done. destruct ev as [| |b|a d]; simpl.
    + split; [by split|done].
    + split; [done | by eexists].
    + destruct (num_gtb b num_zero); simpl.
      * split; [done | by eexists].
      * split; [|done]. intros _. split; [done|]. by repeat constructor.
    + split; [by split|done].
Qed.

(** X2: in every reachable initialized ledger the initial balance is above
    0, so the sidebar's test [initial_balance > 0] never fails. *)
Theorem initialized_balance_positive st :
  reachable st -> is_initialized st = true ->
  num_gtb (initial_balance st) num_zero = true.
Proof. intros Hreach. by apply reachable_valid. Qed.

(** X3: every transaction of a reachable ledger has an amount above 0 and
    a description that is not empty. *)
Theorem reachable_transactions_valid st t :
  reachable st -> t ∈ transactions st ->
  num_gtb (amount t) num_zero = true /\ description t <> "".
Proof.
  intros Hreach Ht. destruct (reachable_valid st Hreach) as [_ Hts].
  by apply (proj1 (Forall_forall _ _) Hts).
Qed.

Lemma step_prefix st ev clk :
  ev <> ClickReset ->
  transactions st `prefix_of` transactions (step st ev clk) /\
  length (transactions (step st ev clk)) <= S (length (transactions st)).
Proof.
  intros Hev. unfold step. destruct (is_initialized st) eqn:Hinit.
  - rewrite main_dashboard by done. destruct ev as [| |b|a d]; simpl; try done;
      try (split; [done | lia]).
    destruct (num_gtb a num_zero); simpl; [|split; [done | lia]].
    split; [by apply prefix_app_r|]. rewrite length_app. simpl. lia.
  - rewrite main_setup by done. destruct ev as [| |b|a d]; simpl; try done;
      try (split; [done | lia]).
    destruct (num_gtb b num_zero); simpl; split; done || lia.
Qed.

(** X4: the ledger is append-only: a run other than a reset keeps the
    transactions there were, in order, and adds at most one at the end; so
    does any sequence of such runs. *)
Theorem transactions_append_only st (evs : list (interaction A * clock)) :
  Forall (fun e => e.1 <> ClickReset) evs ->
  transactions st `prefix_of` transactions (run st evs) /\
  length (transactions (run st evs)) <= length (transactions st) + length evs.
Proof.
  intros Hevs. revert st.
  induction Hevs as [|[ev clk] evs Hev _ IH]; intros st.
  - simpl. split; [done | lia].
  - simpl in Hev. unfold run. simpl. fold (run (step st ev clk) evs).
    destruct (step_prefix st ev clk Hev) as [Hpre Hlen].
    destruct (IH (step st ev clk)) as [Hpre' Hlen'].
    split; [by etrans | simpl; lia].
Qed.

(** X5: the [date.today()] fallback of line 125 is never used: the series
    and the chart do not depend on the day they are built. *)
Theorem balance_chart_ignores_today st (d1 d2 : Date) :
  balance_frame st d1 = balance_frame st d2 /\
  create_balance_visualization st d1 = create_balance_visualization st d2.
Proof.
  assert (balance_frame st d1 = balance_frame st d2) as Hdf.
  { destruct (transactions st) as [|t0 ts'] eqn:Hts.
    - by rewrite !balance_frame_nil.
    - by rewrite !(balance_frame_cons _ _ t0 ts'). }
  split; [done|]. unfold create_balance_visualization. by rewrite Hdf.
Qed.

(** X9: a valid expense on an initialized ledger is always recorded, also
    when it overdraws the balance: the run appends one transaction and ends
    in [st.rerun()], and the one alert it shows is the exceeded-balance error
    exactly when the new balance is below 0, the only error alert that goes
    with a change of the ledger. *)
Theorem overspending_is_recorded st (a : A) descr clk :
  is_initialized st = true -> num_gtb a num_zero = true ->
  rerun (main (store_of st) (ClickAddExpense a descr) clk) = true /\
  length (transactions (step st (ClickAddExpense a descr) clk))
    = S (length (transactions st)) /\
  exists shown,
    alerts (main (store_of st) (ClickAddExpense a descr) clk) = [shown] /\
    (shown = error_exceeded_balance <->
       num_ltb (calculate_current_balance (step st (ClickAddExpense a descr) clk))
               num_zero = true) /\
    (is_error shown = true -> shown = error_exceeded_balance).
Proof.
  intros Hinit Hpos. unfold step. rewrite main_dashboard by done.
  rewrite Hpos. simpl. split; [done|]. split.
  { rewrite length_app. simpl. lia. }
  eexists. split; [done|].
  destruct (num_ltb _ num_zero) eqn:Hneg.
  - by split.
  - destruct (num_eqb _ num_zero); split; try done; by split.
Qed.

End PageInvariants.

Section BreakdownChart.
Context {A : Type} `{Number A}.
Implicit Types (st : session_state A) (ts : list (transaction A)).

Lemma elem_of_names ts d :
  d ∈ (map_to_list (expense_data ts)).*1 <-> d ∈ description <$> ts.
Proof.
  rewrite <- (elem_of_list_to_set (C:=gset string) d (description <$> ts)).
  fold (descriptions ts). rewrite <- dom_expense_data, elem_of_dom.
  rewrite list_elem_of_fmap. split.
  - intros ([d' v] & -> & Hin). apply elem_of_map_to_list in Hin. by eexists.
  - intros [v Hv]. exists (d, v). split; [done|]. by apply elem_of_map_to_list.
Qed.

(** X6: when a breakdown chart is drawn, its labels are the descriptions
    in use, each exactly once, with one value per label; there are at least
    two of them and no more than there are transactions. *)
Theorem breakdown_labels_distinct st (p : pie A) :
  create_expense_breakdown st = Some p ->
  NoDup (names p) /\
  length (values p) = length (names p) /\
  (forall d, d ∈ names p <-> d ∈ description <$> transactions st) /\
  2 <= length (names p) <= length (transactions st).
Proof.
  rewrite create_expense_breakdown_eq. case_decide as Hsz; [|done].
  intros [= <-]. simpl.
  assert (NoDup (map_to_list (expense_data (transactions st))).*1) as Hnd
    by apply NoDup_fst_map_to_list.
  split; [done|]. split; [by rewrite !length_fmap|].
  split; [intros d; apply elem_of_names|].
  rewrite length_fmap, length_map_to_list, size_expense_data. split; [done|].
  rewrite <- size_expense_data, <- length_map_to_list.
  rewrite <- (length_fmap fst), <- (length_fmap description (transactions st)).
  apply submseteq_length, NoDup_submseteq; [done|].
  intros d. by rewrite elem_of_names.
Qed.

End BreakdownChart.

Section ExactBreakdown.
Context {A : Type} `{ExactNumber A}.

Lemma group_total_perm (g g' : list (transaction A)) :
  g ≡ₚ g' -> group_total g = group_total g'.
Proof.
  intros Hperm. destruct g as [|t g], g' as [|t' g'].
  - done.
  - by apply Permutation_nil_cons in Hperm.
  - symmetry in Hperm. by apply Permutation_nil_cons in Hperm.
  - rewrite !group_total_exact. f_equal. apply total_perm. by rewrite Hperm.
Qed.

(** X7: on exact numbers the breakdown does not depend on the order in
    which the expenses were entered. *)
Theorem breakdown_order_independent (ts ts' : list (transaction A)) :
  ts ≡ₚ ts' -> expense_data ts = expense_data ts'.
Proof.
  intros Hperm. apply map_eq. intros d. rewrite !expense_data_lookup.
  apply group_total_perm. unfold group. by rewrite Hperm.
Qed.

(** X8: after a first balance [b] the current balance is [b]. *)
Theorem balance_after_set_balance (st : session_state A) (b : A) clk :
  reachable st -> is_initialized st = false -> num_gtb b num_zero = true ->
  step st (ClickSetBalance b) clk = mkState [] b true /\
  calculate_current_balance (step st (ClickSetBalance b) clk) = b.
Proof.
  intros Hreach Hinit Hb.
  destruct (reachable_uninitialized st Hreach Hinit) as [_ Hts].
  assert (step st (ClickSetBalance b) clk = mkState [] b true) as ->.
  { unfold step. rewrite main_setup by done. rewrite Hb. simpl. by rewrite Hts. }
  split; [done|]. unfold calculate_current_balance, py_sum. simpl.
  apply num_sub_0_r.
Qed.

End ExactBreakdown.

Section History.
Context {A : Type} `{Number A} `{Formatting A}.
Implicit Types (st : session_state A) (t : transaction A).

(** X10: the history is the [st.info] line exactly on an empty ledger;
    otherwise it is a table with one row per transaction, the most recent
    first: the i-th transaction of the ledger is row [n - 1 - i]. *)
Theorem history_most_recent_first st :
  (transactions st = [] -> display_transaction_history st = info_no_transactions) /\
  (transactions st <> [] ->
     exists rows,
       display_transaction_history st = history_table rows /\
       length rows = length (transactions st) /\
       forall i t, transactions st !! i = Some t ->
         rows !! (length (transactions st) - S i) = Some (history_row_of t)).
Proof.
  unfold display_transaction_history. split.
  - by intros ->.
  - intros Hne. destruct (transactions st) as [|t0 ts'] eqn:Hts; [done|].
    eexists. split; [done|]. split; [by rewrite length_fmap, length_reverse|].
    intros i t Hi. pose proof (lookup_lt_Some _ _ _ Hi) as Hlt.
    rewrite list_lookup_fmap, reverse_lookup by lia.
    replace (length (t0 :: ts') - S (length (t0 :: ts') - S i)) with i by lia.
    by rewrite Hi.
Qed.

(** X11: a recorded expense goes on top of the history, above the rows
    that were there, which stay as they were. *)
Theorem history_new_expense_on_top st (a : A) descr clk :
  is_initialized st = true -> num_gtb a num_zero = true ->
  display_transaction_history (step st (ClickAddExpense a descr) clk)
    = history_table
        (mkRow (strftime_ymd (today clk))
               (if String.eqb descr "" then "General Expense" else descr)
               (format_rupees a) (strftime_hms (now clk))
         :: (history_row_of <$> reverse (transactions st))).
Proof.
  intros Hinit Hpos. unfold step. rewrite main_dashboard by done.
  rewrite Hpos. simpl. unfold display_transaction_history. simpl.
  destruct (transactions st ++ _) eqn:Happ.
  { by apply app_nil in Happ as [_ ?]. }
  rewrite <- Happ, reverse_app. simpl. unfold history_row_of at 1. simpl.
  unfold py_bool. by destruct (String.eqb descr "").
Qed.

(** X12: below the expense form the dashboard shows nothing on an empty
    ledger; otherwise it always shows the balance chart, then the breakdown
    chart or, with fewer than two distinct descriptions, the hint, then the
    history as a table: the [st.info] line of [display_transaction_history]
    is never reached from [main]. *)
Theorem dashboard_charts st day :
  (transactions st = [] -> visualizations st day = []) /\
  (transactions st <> [] ->
     exists fig second rows,
       visualizations st day
         = [horizontal_rule; balance_chart fig; second; horizontal_rule;
            transaction_history (history_table rows)] /\
       create_balance_visualization st day = Some fig /\
       length (trace_y fig) = S (length (transactions st)) /\
       (second = info_breakdown_hint <-> size (descriptions (transactions st)) < 2) /\
       (forall p, second = expense_chart p <-> create_expense_breakdown st = Some p)).
Proof.
  unfold visualizations. split.
  - by intros ->.
  - intros Hne.
    assert (exists t0 ts', transactions st = t0 :: ts') as (t0 & ts' & Hts)
      by (destruct (transactions st); [done | eauto]).
    pose proof (balance_frame_cons st day t0 ts' Hts) as Hdf.
    unfold create_balance_visualization. rewrite Hdf. simpl.
    unfold display_transaction_history.
    rewrite create_expense_breakdown_eq.
    destruct (transactions st) as [|t1 ts1] eqn:Hts1; [done|].
    case_decide as Hsz.
    + do 3 eexists. split; [done|]. split; [done|]. simpl.
      split; [by rewrite length_running_balances|].
      split; [split; [done | lia]|].
      intros p. split; congruence.
    + do 3 eexists. split; [done|]. split; [done|]. simpl.
      split; [by rewrite length_running_balances|].
      split; [split; [lia | done]|].
      intros p. split; congruence.
Qed.

End History.

Section OrderedBalance.
Context {A : Type} `{Number A} `{!OrderedNumber A} `{!MonotoneNumber A}.
Implicit Types (st : session_state A).

Lemma positive_not_negative (x : A) :
  num_gtb x num_zero = true -> num_ltb x num_zero = false.
Proof. unfold num_gtb. apply num_ltb_asym. Qed.

Lemma fold_add_nonneg (xs : list A) (acc : A) :
  num_ltb acc num_zero = false ->
  Forall (fun x => num_gtb x num_zero = true) xs ->
  num_ltb (fold_left num_add xs acc) num_zero = false.
Proof.
  intros Hacc Hxs. revert acc Hacc.
  induction Hxs as [|x xs Hx _ IH]; intros acc Hacc; [done|].
  simpl. apply IH. apply num_ltb_asym. by apply num_add_pos.
Qed.

Lemma reachable_amounts_positive st :
  reachable st -> Forall (fun x => num_gtb x num_zero = true) (amount <$> transactions st).
Proof.
  intros Hreach. destruct (reachable_valid st Hreach) as [_ Hts].
  apply Forall_fmap. eapply Forall_impl; [exact Hts|]. by intros t [? _].
Qed.

Lemma balance_le_initial st :
  reachable st -> is_initialized st = true ->
  num_ltb (initial_balance st) (calculate_current_balance st) = false.
Proof.
  intros Hreach Hinit. unfold calculate_current_balance. rewrite Hinit. simpl.
  apply num_sub_nonneg_le. apply fold_add_nonneg.
  - apply num_ltb_irrefl.
  - by apply reachable_amounts_positive.
Qed.

(** X13: on a reachable ledger the current balance never exceeds the
    initial balance: the script only records expenses. *)
Theorem balance_never_exceeds_initial st :
  reachable st -> is_initialized st = true ->
  num_ltb (initial_balance st) (calculate_current_balance st) = false.
Proof. apply balance_le_initial. Qed.



End OrderedBalance.

(** The integers and the rationals obey the order laws. *)
#[export] Instance Z_MonotoneNumber : MonotoneNumber Z.
Proof. split; simpl; intros; lia. Qed.

Import Qcanon.

#[export] Instance Qc_OrderedNumber : OrderedNumber Qcanon.Qc.
Proof.
  split; simpl.
  - intros x. apply bool_decide_eq_false. apply (irreflexivity Qcanon.Qclt).
  - intros x y Hxy%bool_decide_eq_true. apply bool_decide_eq_false.
    intros Hyx. apply (irreflexivity Qcanon.Qclt x). by etrans.
  - intros x y Hxy%bool_decide_eq_true. apply bool_decide_eq_true.
    apply (Qcplus_lt_mono_r _ _ (Qcanon.Qcopp y)) in Hxy.
    by rewrite Qcanon.Qcplus_opp_r in Hxy.
Qed.

#[export] Instance Qc_MonotoneNumber : MonotoneNumber Qcanon.Qc.
Proof.
  split; simpl.
  - intros x y Hx%bool_decide_eq_false Hy%bool_decide_eq_true.
    apply bool_decide_eq_true. apply Qcplus_nonneg_pos; [|done].
    by apply Qcle_ngt.
  - intros x s Hs%bool_decide_eq_false. apply bool_decide_eq_false.
    apply Qcle_ngt. apply Qcle_ngt in Hs.
    apply Qcanon.Qcle_minus_iff.
    replace (Qcanon.Qcplus x (Qcanon.Qcopp (Qcanon.Qcminus x s))) with s; [done|].
    unfold Qcanon.Qcminus. ring.
Qed.

#[export] Instance Qc_OrderedDivision : OrderedDivision Qcanon.Qc.
Proof.
  split; simpl.
  - done.
  - intros x y Hy%bool_decide_eq_true Hxy%bool_decide_eq_false.
    apply bool_decide_eq_false. apply Qcle_ngt. apply Qcle_ngt in Hxy.
    assert (y <> Qcanon.Q2Qc (QArith_base.inject_Z 0)) as Hne.
    { intros ->. by apply (irreflexivity Qcanon.Qclt) in Hy. }
    assert (Qcanon.Qcmult y (Qcanon.Qcinv y) = Qcanon.Q2Qc (QArith_base.inject_Z 1)) as <-
      by exact (Qcanon.Qcmult_inv_r y Hne).
    unfold Qcanon.Qcdiv.
    apply Qcmult_le_mono_nonneg_r; [|done].
    apply Qcanon.Qclt_le_weak. by apply Qcinv_pos.
Qed.

Close Scope Qc_scope.

(** ** Examples of the results on the page *)

Lemma reachable_groceries_gas : reachable groceries_gas.
Proof.
  change groceries_gas with
    (run (fresh : session_state Z)
         [(ClickSetBalance 1000%Z, morning 1);
          (ClickAddExpense 200%Z "Groceries", morning 1);
          (ClickAddExpense 150%Z "Gas", morning 2)]).
  apply reachable_run, reachable_fresh.
Qed.

Lemma reachable_rent_and_tea : reachable rent_and_tea.
Proof. apply reachable_run, reachable_fresh. Qed.

(** Witness of X1: a balance of 0 is refused without a rerun. *)
Lemma run_without_rerun_changes_nothing_witness :
  state (main (store_of fresh) (ClickSetBalance 0%Z) (morning 1)) = fresh.
Proof.
  destruct (run_without_rerun_changes_nothing
              (store_of fresh) (ClickSetBalance 0%Z) (morning 1)) as [Hsame _].
  destruct (Hsame eq_refl) as [Hstate _]. exact Hstate.
Defined.

(** Witness of X2: the ledger started with 1000. *)
Lemma initialized_balance_positive_witness :
  num_gtb (initial_balance groceries_gas) 0%Z = true.
Proof.
  exact (initialized_balance_positive groceries_gas reachable_groceries_gas eq_refl).
Defined.

(** Witness of X3: the Groceries expense. *)
Lemma reachable_transactions_valid_witness :
  num_gtb 200%Z 0%Z = true /\ "Groceries" <> "".
Proof.
  apply (reachable_transactions_valid groceries_gas
           (mkTransaction 200%Z "Groceries" (now (morning 1)) (may 1))
           reachable_groceries_gas).
  apply list_elem_of_here.
Defined.

(** Witness of X4: a refused second balance and a Tea expense. *)
Lemma transactions_append_only_witness :
  transactions groceries_gas
    `prefix_of` transactions (run groceries_gas [(ClickSetBalance 500%Z, morning 3);
                                                 (ClickAddExpense 20%Z "Tea", morning 3)]).
Proof.
  apply (transactions_append_only groceries_gas).
  repeat constructor; discriminate.
Defined.

(** Witness of X6: the chart of Groceries and Gas. *)
Lemma breakdown_labels_distinct_witness :
  exists p, create_expense_breakdown groceries_gas = Some p /\ NoDup (names p).
Proof.
  destruct (create_expense_breakdown groceries_gas) as [p|] eqn:Hp.
  - exists p. split; [reflexivity|].
    exact (proj1 (breakdown_labels_distinct groceries_gas p Hp)).
  - vm_compute in Hp. discriminate.
Defined.

(** Witness of X7: Gas entered before Groceries. *)
Lemma breakdown_order_independent_witness :
  expense_data (transactions groceries_gas)
    = expense_data (reverse (transactions groceries_gas)).
Proof.
  apply (breakdown_order_independent (transactions groceries_gas)).
  apply Permutation_swap.
Defined.

(** Witness of X8: a first balance of 1000. *)
Lemma balance_after_set_balance_witness :
  calculate_current_balance (step fresh (ClickSetBalance 1000%Z) (morning 1)) = 1000%Z.
Proof.
  destruct (balance_after_set_balance fresh 1000%Z (morning 1) reachable_fresh)
    as [_ Hbal]; [reflexivity | reflexivity | exact Hbal].
Defined.

(** Witness of X9: a further 10 on the ledger that is already 50 short. *)
Lemma overspending_is_recorded_witness :
  length (transactions (step overdrawn (ClickAddExpense 10%Z "Bus") (morning 2))) = 2.
Proof.
  destruct (overspending_is_recorded overdrawn 10%Z "Bus" (morning 2))
    as (_ & Hlen & _); [reflexivity | reflexivity | exact Hlen].
Defined.

(** Witness of X10: Gas, the later expense, is the first row. *)
Lemma history_most_recent_first_witness :
  exists rows,
    display_transaction_history groceries_gas = history_table rows /\
    rows !! 0 = Some (mkRow "2024-05-02" "Gas" "Rs150.00" "09:30:00").
Proof.
  destruct (history_most_recent_first groceries_gas) as [_ Hrows].
  destruct Hrows as (rows & Hview & _ & Hrow); [discriminate|].
  exists rows. split; [exact Hview|].
  exact (Hrow 1 (mkTransaction 150%Z "Gas" (now (morning 2)) (may 2)) eq_refl).
Defined.

(** Witness of X11: Tea without a description on top of Gas and
    Groceries. *)
Lemma history_new_expense_on_top_witness :
  display_transaction_history (step groceries_gas (ClickAddExpense 20%Z "" ) (morning 3))
    = history_table
        [mkRow "2024-05-03" "General Expense" "Rs20.00" "09:30:00";
         mkRow "2024-05-02" "Gas" "Rs150.00" "09:30:00";
         mkRow "2024-05-01" "Groceries" "Rs200.00" "09:30:00"].
Proof.
  pose proof (history_new_expense_on_top groceries_gas 20%Z "" (morning 3)) as Htop.
  assert (is_initialized groceries_gas = true) as Hinit by reflexivity.
  assert (num_gtb 20%Z num_zero = true) as Hpos by reflexivity.
  exact (Htop Hinit Hpos).
Defined.

(** Witness of X12: the dashboard of Groceries and Gas shows a breakdown
    chart. *)
Lemma dashboard_charts_witness :
  exists fig second rows,
    visualizations groceries_gas (may 3)
      = [horizontal_rule; balance_chart fig; second; horizontal_rule;
         transaction_history (history_table rows)] /\
    trace_y fig = [1000%Z; 800%Z; 650%Z].
Proof.
  destruct (dashboard_charts groceries_gas (may 3)) as [_ Hshown].
  destruct Hshown as (fig & second & rows & Hvis & Hfig & _); [discriminate|].
  exists fig, second, rows. split; [exact Hvis|].
  injection Hfig as <-. reflexivity.
Defined.

(** Witness of X13: 650 left of 1000. *)
Lemma balance_never_exceeds_initial_witness :
  num_ltb 1000%Z (calculate_current_balance groceries_gas) = false.
Proof.
  exact (balance_never_exceeds_initial groceries_gas reachable_groceries_gas eq_refl).
Defined.



(** Witness of X16: Tea for 20 takes the balance from 650 to 630. *)
Lemma balance_after_expense_witness :
  calculate_current_balance (step groceries_gas (ClickAddExpense 20%Z "Tea") (morning 3))
    = 630%Z.
Proof.
  pose proof (balance_after_expense groceries_gas 20%Z "Tea" (morning 3)) as Hless.
  assert (is_initialized groceries_gas = true) as Hinit by reflexivity.
  assert (num_gtb 20%Z num_zero = true) as Hpos by reflexivity.
  exact (Hless Hinit Hpos).
Defined.
